(** * Property descriptors of the legacy HP instruments of PyMeasure

    A shallow embedding of
    - [pymeasure/instruments/hp/hp5384A.py] (HP 5384A frequency counter),
    - [pymeasure/instruments/hp/hp8350X.py] (HP 8350A/B sweep oscillator),
    - the property machinery they are declared with
      ([HPLegacyInstrument.setting], [.control], [.measurement], the
      [strict_discrete_set] / [strict_range] validators) and the message
      transport underneath ([VISAAdapter]).

    Python values are modelled by [pyval] with Python's [==] between them
    ([True == 1], IntEnum members equal to their integer value), Python's
    [%]-formatting of a one-slot template by [py_format], and an instrument
    by its transport: the list of lines written so far and the pending reply
    bytes.  Every property access is a computation in a small state/error
    monad over the transport. *)

From Stdlib Require Import String Ascii List ZArith Bool Lia.
Import ListNotations.
Open Scope string_scope.

(* ------------------------------------------------------------------ *)
(** ** Python values and errors *)

Inductive pyval : Type :=
| PyNone
| PyBool (b : bool)
| PyInt (z : Z)
| PyStr (s : string)
| PyEnum (cls name : string) (v : Z).   (** an IntEnum member *)

Inductive pyerr : Type :=
| ValidationError                 (** value rejected by a validator *)
| InstrumentCommunicationError    (** timeout / missing terminator *)
| TypeError
| ValueError
| KeyError
| AttributeError.

Inductive res (A : Type) : Type :=
| Ok (a : A)
| Err (e : pyerr).
Arguments Ok {A} a.
Arguments Err {A} e.

Definition res_bind {A B} (r : res A) (f : A -> res B) : res B :=
  match r with Ok a => f a | Err e => Err e end.

(** The numeric value of a Python number ([bool] and [IntEnum] are [int]s). *)
Definition py_num (v : pyval) : option Z :=
  match v with
  | PyBool b => Some (if b then 1%Z else 0%Z)
  | PyInt z => Some z
  | PyEnum _ _ z => Some z
  | _ => None
  end.

(** Python's [==] on the modelled values. *)
Definition py_eq (a b : pyval) : bool :=
  match py_num a, py_num b with
  | Some x, Some y => Z.eqb x y
  | None, None =>
      match a, b with
      | PyStr s, PyStr t => String.eqb s t
      | PyNone, PyNone => true
      | _, _ => false
      end
  | _, _ => false
  end.

(* ------------------------------------------------------------------ *)
(** ** Decimal text, [int()] and [str.upper] *)

Definition digit_char (d : Z) : ascii := ascii_of_nat (48 + Z.to_nat d).

Fixpoint digits_fuel (fuel : nat) (n : Z) (acc : string) : string :=
  match fuel with
  | O => acc
  | S f =>
      let acc' := String (digit_char (Z.modulo n 10)) acc in
      let q := Z.div n 10 in
      if Z.eqb q 0 then acc' else digits_fuel f q acc'
  end.

(** [str(z)] for a Python [int]. *)
Definition py_str_of_Z (z : Z) : string :=
  if Z.ltb z 0
  then "-" ++ digits_fuel (S (Pos.size_nat (Z.to_pos (- z)))) (- z) ""
  else digits_fuel (S (Pos.size_nat (Z.to_pos z))) z "".

Definition digit_val (c : ascii) : option Z :=
  let n := nat_of_ascii c in
  if (48 <=? n)%nat && (n <=? 57)%nat then Some (Z.of_nat (n - 48)) else None.

Fixpoint parse_digits (s : string) (acc : Z) : option Z :=
  match s with
  | EmptyString => Some acc
  | String c r =>
      match digit_val c with
      | Some d => parse_digits r (acc * 10 + d)
      | None => None
      end
  end.

(** [int(s)] on plain decimal text: an optional sign and at least one digit. *)
Definition parse_int (s : string) : option Z :=
  match s with
  | String c r =>
      if Ascii.eqb c "-"%char then
        match r with EmptyString => None | _ => option_map Z.opp (parse_digits r 0) end
      else if Ascii.eqb c "+"%char then
        match r with EmptyString => None | _ => parse_digits r 0 end
      else parse_digits s 0
  | EmptyString => None
  end.

(** Python's [int(x)]. *)
Definition py_int (v : pyval) : res Z :=
  match v with
  | PyBool _ | PyInt _ | PyEnum _ _ _ =>
      match py_num v with Some z => Ok z | None => Err TypeError end
  | PyStr s => match parse_int s with Some z => Ok z | None => Err ValueError end
  | PyNone => Err TypeError
  end.

(** Python's [str(x)] ([IntEnum.__str__] is [int.__str__]). *)
Definition py_str (v : pyval) : string :=
  match v with
  | PyNone => "None"
  | PyBool true => "True"
  | PyBool false => "False"
  | PyInt z => py_str_of_Z z
  | PyStr s => s
  | PyEnum _ _ z => py_str_of_Z z
  end.

(** [str.upper] on ASCII text. *)
Definition ascii_upper (c : ascii) : ascii :=
  let n := nat_of_ascii c in
  if (97 <=? n)%nat && (n <=? 122)%nat then ascii_of_nat (n - 32) else c.

Fixpoint py_upper (s : string) : string :=
  match s with
  | EmptyString => EmptyString
  | String c r => String (ascii_upper c) (py_upper r)
  end.

(* ------------------------------------------------------------------ *)
(** ** [template % value] for a single value *)

(** The [%d] conversion: a real number is required. *)
Definition format_d (v : pyval) : res string :=
  match py_num v with
  | Some z => Ok (py_str_of_Z z)
  | None => Err TypeError
  end.

(** [go t arg]: [arg] is the value still to be converted. *)
Fixpoint py_format_go (t : string) (arg : option pyval) : res string :=
  match t with
  | EmptyString =>
      match arg with
      | None => Ok ""
      | Some _ => Err TypeError        (* not all arguments converted *)
      end
  | String c r =>
      if Ascii.eqb c "%"%char then
        match r with
        | EmptyString => Err ValueError  (* incomplete format *)
        | String k r' =>
            if Ascii.eqb k "%"%char then
              res_bind (py_format_go r' arg) (fun s => Ok ("%" ++ s))
            else if Ascii.eqb k "d"%char then
              match arg with
              | None => Err TypeError    (* not enough arguments *)
              | Some v =>
                  res_bind (format_d v) (fun d =>
                  res_bind (py_format_go r' None) (fun s => Ok (d ++ s)))
              end
            else if Ascii.eqb k "s"%char then
              match arg with
              | None => Err TypeError
              | Some v =>
                  res_bind (py_format_go r' None) (fun s => Ok (py_str v ++ s))
              end
            else Err ValueError        (* unsupported format character *)
        end
      else res_bind (py_format_go r arg) (fun s => Ok (String c s))
  end.

Definition py_format (template : string) (v : pyval) : res string :=
  py_format_go template (Some v).


(* ------------------------------------------------------------------ *)
(** ** The transport *)

Record transport : Type := mkTransport {
  written : list string;          (** every line sent, oldest first *)
  inbuf : string;                 (** reply bytes not yet read *)
  read_termination : string;
  write_termination : string
}.

Definition set_written (st : transport) (w : list string) : transport :=
  mkTransport w (inbuf st) (read_termination st) (write_termination st).

Definition set_inbuf (st : transport) (b : string) : transport :=
  mkTransport (written st) b (read_termination st) (write_termination st).

(** State and error monad over the transport. *)
Definition M (A : Type) : Type := transport -> res A * transport.

Definition ret {A} (a : A) : M A := fun st => (Ok a, st).
Definition raise {A} (e : pyerr) : M A := fun st => (Err e, st).
Definition lift {A} (r : res A) : M A := fun st => (r, st).
Definition bind {A B} (c : M A) (f : A -> M B) : M B :=
  fun st => match c st with
            | (Ok a, st') => f a st'
            | (Err e, st') => (Err e, st')
            end.

Notation "x <- c1 ;; c2" := (bind c1 (fun x => c2))
  (at level 61, c1 at next level, right associativity).
Notation "c1 ;;; c2" := (bind c1 (fun _ => c2))
  (at level 61, right associativity).

Fixpoint str_drop (n : nat) (s : string) : string :=
  match n, s with
  | O, _ => s
  | S _, EmptyString => EmptyString
  | S k, String _ r => str_drop k r
  end.

(** [s.startswith(p)] *)
Fixpoint str_prefix (p s : string) : bool :=
  match p with
  | EmptyString => true
  | String a p' =>
      match s with
      | EmptyString => false
      | String b s' => Ascii.eqb a b && str_prefix p' s'
      end
  end.

(** Split [s] at the first occurrence of [term]: the text before it and
    the text after it. *)
Fixpoint split_at_term (term s : string) : option (string * string) :=
  if str_prefix term s then Some ("", str_drop (String.length term) s)
  else match s with
       | EmptyString => None
       | String c r =>
           option_map (fun p => (String c (fst p), snd p)) (split_at_term term r)
       end.

(** [write(command)]: the command followed by the write terminator. *)
Definition tr_write (cmd : string) : M unit :=
  fun st => (Ok tt, set_written st (written st ++ [cmd ++ write_termination st])).

(** [read()]: one reply line, the read terminator stripped; without a
    terminator in the pending bytes the read times out. *)
Definition tr_read : M string :=
  fun st => match split_at_term (read_termination st) (inbuf st) with
            | Some (line, rest) => (Ok line, set_inbuf st rest)
            | None => (Err InstrumentCommunicationError, st)
            end.

(** The last character of the read terminator is VISA's termination
    character. *)
Fixpoint last_char (s : string) : option ascii :=
  match s with
  | EmptyString => None
  | String c EmptyString => Some c
  | String _ r => last_char r
  end.

(** Reading up to [n] bytes; with [brk = Some t] the byte [t] ends the
    read (and is returned).  Fewer than [n] pending bytes time out. *)
Fixpoint take_bytes (n : nat) (brk : option ascii) (s : string)
  : option (string * string) :=
  match n with
  | O => Some ("", s)
  | S k =>
      match s with
      | EmptyString => None
      | String c r =>
          if match brk with Some t => Ascii.eqb t c | None => false end
          then Some (String c "", r)
          else option_map (fun p => (String c (fst p), snd p)) (take_bytes k brk r)
      end
  end.

(** Reading everything pending, or up to and including [t]. *)
Fixpoint take_all (brk : option ascii) (s : string) : string * string :=
  match s with
  | EmptyString => ("", "")
  | String c r =>
      if match brk with Some t => Ascii.eqb t c | None => false end
      then (String c "", r)
      else let p := take_all brk r in (String c (fst p), snd p)
  end.

(** Modelled from the spec: [VISAAdapter.read_bytes(count,
    break_on_termchar)] (pymeasure/adapters/visa.py, not in the sources;
    its tests are [TestReadBytes] in tests/adapters/test_visa.py).  A
    non-negative [count] reads [count] bytes, a negative one reads what is
    pending; when [break_on_termchar] is requested the termination
    character ends the read, as [test_read_break_on_termchar] fixes for
    [count] in [(-1, 7)]. *)
Definition read_bytes (count : Z) (break_on_termchar : bool) : M string :=
  fun st =>
    let brk := if break_on_termchar then last_char (read_termination st) else None in
    if Z.leb 0 count then
      match take_bytes (Z.to_nat count) brk (inbuf st) with
      | Some (b, rest) => (Ok b, set_inbuf st rest)
      | None => (Err InstrumentCommunicationError, st)
      end
    else let p := take_all brk (inbuf st) in (Ok (fst p), set_inbuf st (snd p)).

(* ------------------------------------------------------------------ *)
(** ** Validators and value maps *)

(** The [values] argument of a property: nothing, a list/tuple (a
    [(min, max)] pair for [strict_range]) or a dict. *)
Inductive values_decl : Type :=
| NoValues
| ValList (l : list pyval)
| ValMap (m : list (pyval * pyval)).

Inductive Validator : Type :=
| strict_discrete_set
| strict_range.

Definition map_keys (m : list (pyval * pyval)) : list pyval := map fst m.

(** Modelled from the spec: [strict_discrete_set] and [strict_range]
    (pymeasure/instruments/validators.py, not in the sources).  The
    discrete set is the list, or the dict's key set; [==] decides
    membership.  The range is [min <= value <= max] on numbers. *)
Definition run_validator (k : Validator) (v : pyval) (vals : values_decl) : res pyval :=
  match k with
  | strict_discrete_set =>
      match vals with
      | ValList l => if existsb (py_eq v) l then Ok v else Err ValidationError
      | ValMap m => if existsb (py_eq v) (map_keys m) then Ok v else Err ValidationError
      | NoValues => Err ValidationError
      end
  | strict_range =>
      match vals, py_num v with
      | ValList [lo; hi], Some z =>
          match py_num lo, py_num hi with
          | Some a, Some b =>
              if Z.leb a z && Z.leb z b then Ok v else Err ValidationError
          | _, _ => Err ValidationError
          end
      | _, _ => Err ValidationError
      end
  end.

(** Dict lookup [values[v]]. *)
Fixpoint assoc_lookup (m : list (pyval * pyval)) (k : pyval) : option pyval :=
  match m with
  | [] => None
  | (k', t) :: r => if py_eq k k' then Some t else assoc_lookup r k
  end.

(** The inverse lookup: the first key whose value is [t]. *)
Fixpoint assoc_rev_lookup (m : list (pyval * pyval)) (t : pyval) : option pyval :=
  match m with
  | [] => None
  | (k, t') :: r => if py_eq t t' then Some k else assoc_rev_lookup r t
  end.

(** Modelled from the spec: encoding through [value_map] on assignment. *)
Definition value_map_encode (vals : values_decl) (v : pyval) : res pyval :=
  match vals with
  | ValMap m => match assoc_lookup m v with Some t => Ok t | None => Err KeyError end
  | _ => Err TypeError
  end.

(** Modelled from the spec: decoding a wire token through the inverse of
    [value_map] on reading. *)
Definition value_map_decode (vals : values_decl) (t : pyval) : res pyval :=
  match vals with
  | ValMap m => match assoc_rev_lookup m t with Some k => Ok k | None => Err ValueError end
  | _ => Err TypeError
  end.

(* ------------------------------------------------------------------ *)
(** ** Property descriptors *)

Record PropertySpec : Type := mkProperty {
  get_command : option string;     (** [None]: write-only ([setting]) *)
  set_command : option string;     (** [None]: read-only ([measurement]) *)
  validator : option Validator;
  values : values_decl;
  map_values : bool;
  get_process : pyval -> res pyval;
  set_process : pyval -> res pyval
}.

(** Modelled from the spec: [HPLegacyInstrument.measurement(get_command,
    docstring, get_process=identity)]. *)
Definition measurement (cmd : string) (gp : pyval -> res pyval) : PropertySpec :=
  mkProperty (Some cmd) None None NoValues false gp Ok.

(** Modelled from the spec: [HPLegacyInstrument.setting(set_command,
    docstring, validator=None, values=None, map_values=False,
    set_process=identity)]. *)
Definition setting (cmd : string) (vd : option Validator) (vals : values_decl)
  (mv : bool) (sp : pyval -> res pyval) : PropertySpec :=
  mkProperty None (Some cmd) vd vals mv Ok sp.

(** Modelled from the spec: [HPLegacyInstrument.control(get_command,
    set_command, docstring, validator=None, values=None, map_values=False,
    get_process=identity, set_process=identity)]. *)
Definition control (gcmd scmd : string) (vd : option Validator) (vals : values_decl)
  (mv : bool) (gp sp : pyval -> res pyval) : PropertySpec :=
  mkProperty (Some gcmd) (Some scmd) vd vals mv gp sp.

(** Modelled from the spec: the conversion of a reply line; numeric
    replies become numbers, other replies stay text. *)
Definition parse_reply (line : string) : pyval :=
  match parse_int line with Some z => PyInt z | None => PyStr line end.

(** Modelled from the spec: reading a property.  A non-empty
    [get_command] is sent; one reply line is read, converted, passed
    through [get_process] and, for [map_values], decoded through the
    inverse of the value map. *)
Definition prop_get (p : PropertySpec) : M pyval :=
  match get_command p with
  | None => raise AttributeError
  | Some c =>
      (if String.eqb c "" then ret tt else tr_write c) ;;;
      line <- tr_read ;;
      v <- lift (get_process p (parse_reply line)) ;;
      if map_values p then lift (value_map_decode (values p) v) else ret v
  end.

(** Modelled from the spec: assigning a property.  The validator runs
    first; a [map_values] property then replaces the value by its wire
    token; [set_process] is applied, the result substituted into
    [set_command] and the command sent. *)
Definition prop_set (p : PropertySpec) (v : pyval) : M unit :=
  match set_command p with
  | None => raise AttributeError
  | Some template =>
      v1 <- lift (match validator p with
                  | Some k => run_validator k v (values p)
                  | None => Ok v
                  end) ;;
      v2 <- lift (if map_values p then value_map_encode (values p) v1 else Ok v1) ;;
      v3 <- lift (set_process p v2) ;;
      cmd <- lift (py_format template v3) ;;
      tr_write cmd
  end.

(** [Enum(x)]: the member whose value equals [x], else [ValueError]. *)
Definition enum_call (cls : string) (members : list (string * Z)) (x : pyval) : res pyval :=
  match find (fun m => py_eq (PyInt (snd m)) x) members with
  | Some (n, z) => Ok (PyEnum cls n z)
  | None => Err ValueError
  end.

Definition CRLF : string := String (ascii_of_nat 13) (String (ascii_of_nat 10) "").

(* ------------------------------------------------------------------ *)
(** ** HP 5384A frequency counter (hp5384A.py) *)

Module HP5384A.

(** [__init__]: [read_termination] defaults to ["\r\n"]. *)
Definition init (read_term : option string) (write_term : string) : transport :=
  mkTransport [] "" (match read_term with Some t => t | None => CRLF end) write_term.

Definition FUNCTIONS : list (pyval * pyval) :=
  [(PyStr "freq_a", PyStr "FU1");
   (PyStr "period_a", PyStr "FU2");
   (PyStr "freq_b", PyStr "FU3")].

(** [lambda x: str.upper(x[0:20])] *)
Definition display_text_set_process (x : pyval) : res pyval :=
  match x with
  | PyStr s => Ok (PyStr (py_upper (substring 0 20 s)))
  | _ => Err TypeError
  end.

Definition display_text : PropertySpec :=
  setting "DR%s" None NoValues false display_text_set_process.

Definition value_ : PropertySpec := measurement "" Ok.

Definition function : PropertySpec :=
  setting "%s" (Some strict_discrete_set) (ValMap FUNCTIONS) true Ok.

Definition instrument_id : PropertySpec := measurement "ID" Ok.

End HP5384A.

(* ------------------------------------------------------------------ *)
(** ** HP 8350A/B sweep oscillator (hp8350X.py) *)

Module HP8350X.

Definition init (read_term : option string) (write_term : string) : transport :=
  mkTransport [] "" (match read_term with Some t => t | None => CRLF end) write_term.

Definition BOOL_MAPPINGS : list (pyval * pyval) :=
  [(PyBool true, PyInt 1); (PyBool false, PyInt 0)].

Definition LevelingMode : list (string * Z) :=
  [("Internal", 1%Z); ("ExternalCrystal", 2%Z); ("ExternalPowerMeter", 3%Z)].

Definition FMSensitivity : list (string * Z) :=
  [("Neg20", (-20)%Z); ("Neg6", (-6)%Z)].

(** [[x.value for x in E]] *)
Definition enum_values (members : list (string * Z)) : list pyval :=
  map (fun m => PyInt (snd m)) members.

Definition amplitude_marker_enabled : PropertySpec :=
  control "OPAK" "AK%d" (Some strict_discrete_set) (ValMap BOOL_MAPPINGS) true Ok Ok.

Definition leveling_mode : PropertySpec :=
  control "OPA" "A%d" (Some strict_discrete_set) (ValList (enum_values LevelingMode))
    false (enum_call "LevelingMode" LevelingMode) Ok.

(** [lambda x: f"{int(x)}HZ"] *)
Definition hz_set_process (x : pyval) : res pyval :=
  res_bind (py_int x) (fun z => Ok (PyStr (py_str_of_Z z ++ "HZ"))).

Definition center_frequency : PropertySpec :=
  control "OPCF" "CF %d" None NoValues false Ok hz_set_process.

Definition delta_frequency : PropertySpec :=
  control "OPDF" "DF %d" None NoValues false Ok hz_set_process.

Definition fm_sensitivity : PropertySpec :=
  control "OPF" "F%d" (Some strict_discrete_set) (ValList (enum_values FMSensitivity))
    false (enum_call "FMSensitivity" FMSensitivity) Ok.

(** [reset], [decrement], [increment], [set_marker_to_center_frequency]. *)
Definition reset : M unit := tr_write "IP".
Definition decrement : M unit := tr_write "DN".
Definition increment : M unit := tr_write "UP".
Definition set_marker_to_center_frequency : M unit := tr_write "MC".

Definition amplitude_crystal_marker_enabled : PropertySpec :=
  control "OPCA" "CA%d" (Some strict_discrete_set) (ValMap BOOL_MAPPINGS) true Ok Ok.

Definition intensity_crystal_marker_enabled : PropertySpec :=
  control "OPCI" "CI%d" (Some strict_discrete_set) (ValMap BOOL_MAPPINGS) true Ok Ok.

Definition display_blanking_enabled : PropertySpec :=
  control "OPDP" "DP%d" (Some strict_discrete_set) (ValMap BOOL_MAPPINGS) true Ok Ok.

Definition display_update_enabled : PropertySpec :=
  control "OPDU" "DU%d" (Some strict_discrete_set) (ValMap BOOL_MAPPINGS) true Ok Ok.

Definition start_frequency : PropertySpec :=
  control "OPFA" "FA %d" None NoValues false Ok hz_set_process.

Definition stop_frequency : PropertySpec :=
  control "OPFB" "FB %d" None NoValues false Ok hz_set_process.

Definition cw_filter_enabled : PropertySpec :=
  control "OPFI" "FI%d" (Some strict_discrete_set) (ValMap BOOL_MAPPINGS) true Ok Ok.

Definition am_enabled : PropertySpec :=
  control "OPMD" "MD%d" (Some strict_discrete_set) (ValMap BOOL_MAPPINGS) true Ok Ok.

Definition marker_1_2_sweep_enabled : PropertySpec :=
  control "OPMP" "MP%d" (Some strict_discrete_set) (ValMap BOOL_MAPPINGS) true Ok Ok.

(** The boolean controls with their query command and set prefix. *)
Definition bool_controls : list (PropertySpec * string * string) :=
  [(amplitude_marker_enabled, "OPAK", "AK");
   (amplitude_crystal_marker_enabled, "OPCA", "CA");
   (intensity_crystal_marker_enabled, "OPCI", "CI");
   (display_blanking_enabled, "OPDP", "DP");
   (display_update_enabled, "OPDU", "DU");
   (cw_filter_enabled, "OPFI", "FI");
   (am_enabled, "OPMD", "MD");
   (marker_1_2_sweep_enabled, "OPMP", "MP")].

(** The frequency controls, whose [set_process] appends ["HZ"]. *)
Definition frequency_controls : list PropertySpec :=
  [center_frequency; delta_frequency; start_frequency; stop_frequency].

(** The enum controls with their class name, members, query command and
    set prefix. *)
Definition enum_controls : list (PropertySpec * string * list (string * Z) * string * string) :=
  [(leveling_mode, "LevelingMode", LevelingMode, "OPA", "A");
   (fm_sensitivity, "FMSensitivity", FMSensitivity, "OPF", "F")].

End HP8350X.

(* ------------------------------------------------------------------ *)
(** ** Sanity checks *)

Example py_format_ak1 : py_format "AK%d" (PyBool true) = Ok "AK1".
Proof. reflexivity. Qed.

Example py_format_str_d : py_format "CF %d" (PyStr "5HZ") = Err TypeError.
Proof. reflexivity. Qed.

(* ------------------------------------------------------------------ *)
(** ** The declared allowed values *)

(** The allowed set of a discrete-set property (a list, or a dict's
    keys), or the [[min, max]] range of a range property. *)
Definition in_declared (k : Validator) (vals : values_decl) (v : pyval) : bool :=
  match k with
  | strict_discrete_set =>
      existsb (py_eq v) (match vals with
                         | ValList l => l
                         | ValMap m => map_keys m
                         | NoValues => []
                         end)
  | strict_range =>
      match vals, py_num v with
      | ValList [lo; hi], Some z =>
          match py_num lo, py_num hi with
          | Some a, Some b => Z.leb a z && Z.leb z b
          | _, _ => false
          end
      | _, _ => false
      end
  end.

(** No two entries of [l] are [==] under [f]: a dict's keys, or an
    injective dict's values. *)
Fixpoint distinct_by {A} (f : A -> pyval) (l : list A) : bool :=
  match l with
  | [] => true
  | x :: r => negb (existsb (fun y => py_eq (f x) (f y)) r) && distinct_by f r
  end.

(** The termination character [t] occurs in [b] at most as its last byte. *)
Fixpoint term_only_last (t : ascii) (b : string) : bool :=
  match b with
  | EmptyString => true
  | String c r =>
      match r with
      | EmptyString => true
      | _ => negb (Ascii.eqb t c) && term_only_last t r
      end
  end.

Definition LF : string := String (ascii_of_nat 10) "".

(** The reply of the simulated instrument of tests/adapters/test_visa.py. *)
Definition idn_reply : string := "SCPI,MOCK,VERSION_1.0" ++ LF.

(* ------------------------------------------------------------------ *)
(** ** Lemmas on Python equality and the validators *)

Lemma py_eq_refl : forall v, py_eq v v = true.
Proof.
  destruct v; unfold py_eq; cbn -[Z.eqb String.eqb];
    try apply Z.eqb_refl; try apply String.eqb_refl; reflexivity.
Qed.

Lemma py_eq_sym : forall a b, py_eq a b = py_eq b a.
Proof.
  intros x y; destruct x, y; unfold py_eq; cbn -[Z.eqb String.eqb];
    try apply Z.eqb_sym; try apply String.eqb_sym; reflexivity.
Qed.

Lemma py_eq_int_l : forall a x,
  py_eq (PyInt a) x = match py_num x with Some z => Z.eqb a z | None => false end.
Proof. destruct x; reflexivity. Qed.

Lemma run_validator_not_declared : forall k vals v,
  in_declared k vals v = false -> run_validator k v vals = Err ValidationError.
Proof.
  intros k vals v H; destruct k; simpl in *.
  - destruct vals; simpl in *; try rewrite H; reflexivity.
  - destruct vals as [| l |]; try reflexivity.
    destruct (py_num v); [| destruct l as [| ? [| ? [|]]]; reflexivity].
    destruct l as [| lo [| hi [|]]]; try reflexivity.
    destruct (py_num lo), (py_num hi); try reflexivity.
    rewrite H; reflexivity.
Qed.

Lemma run_validator_declared : forall k vals v,
  in_declared k vals v = true -> run_validator k v vals = Ok v.
Proof.
  intros k vals v H; destruct k; simpl in *.
  - destruct vals; simpl in *; try rewrite H; try discriminate; reflexivity.
  - destruct vals as [| l |]; try discriminate.
    destruct (py_num v); [| destruct l as [| ? [| ? [|]]]; discriminate].
    destruct l as [| lo [| hi [|]]]; try discriminate.
    destruct (py_num lo), (py_num hi); try discriminate.
    rewrite H; reflexivity.
Qed.

Lemma existsb_py_eq_In : forall v l,
  existsb (py_eq v) l = true <-> exists k, In k l /\ py_eq v k = true.
Proof. intros v l; apply existsb_exists. Qed.

Lemma assoc_lookup_defined : forall m v k,
  In k (map_keys m) -> py_eq v k = true -> exists t, assoc_lookup m v = Some t.
Proof.
  induction m as [| [k' t'] r IH]; simpl; intros v k Hin Heq; [contradiction |].
  destruct (py_eq v k') eqn:E; [eauto |].
  destruct Hin as [<- | Hin]; [congruence | eauto].
Qed.

Lemma set_written_eta : forall st,
  set_written st (written st) = st.
Proof. destruct st; reflexivity. Qed.

Lemma append_empty_r : forall s, s ++ "" = s.
Proof. induction s; simpl; [reflexivity | now rewrite IHs]. Qed.

(** Assigning a property whose validator fails leaves the transport as it
    was: nothing runs before the validator. *)
Lemma prop_set_validation_error : forall p template k v st,
  set_command p = Some template ->
  validator p = Some k ->
  in_declared k (values p) v = false ->
  prop_set p v st = (Err ValidationError, st).
Proof.
  intros p template k v st Hs Hv Hd.
  unfold prop_set; rewrite Hs, Hv, (run_validator_not_declared _ _ _ Hd).
  reflexivity.
Qed.

(* ------------------------------------------------------------------ *)
(** ** Claims *)

(** C1: for every property with a validator and every value [v] outside
    its declared allowed set or range, assigning [v] raises
    [ValidationError] and the transport state, in particular the list of
    written commands, is exactly as before (no write happens).  Outside
    means: [v == w] is false for every allowed [w] (Python's [==], so [1]
    is inside [{True, False}]).  The two instances are [HP5384A.function]
    and [HP8350X.amplitude_marker_enabled]. *)
Theorem prop_set_rejects_without_write : forall p template k v st,
  set_command p = Some template ->
  validator p = Some k ->
  in_declared k (values p) v = false ->
  prop_set p v st = (Err ValidationError, st) /\ written (snd (prop_set p v st)) = written st.
Proof.
  intros p template k v st Hs Hv Hd.
  rewrite (prop_set_validation_error p template k v st Hs Hv Hd); auto.
Qed.

Lemma prop_set_rejects_without_write_witness :
  (prop_set HP5384A.function (PyStr "freq_c") (HP5384A.init None CRLF)
     = (Err ValidationError, HP5384A.init None CRLF)
   /\ written (snd (prop_set HP5384A.function (PyStr "freq_c") (HP5384A.init None CRLF)))
     = written (HP5384A.init None CRLF))
  /\ (prop_set HP8350X.amplitude_marker_enabled (PyInt 2) (HP8350X.init None CRLF)
     = (Err ValidationError, HP8350X.init None CRLF)
   /\ written (snd (prop_set HP8350X.amplitude_marker_enabled (PyInt 2)
                     (HP8350X.init None CRLF)))
     = written (HP8350X.init None CRLF)).
Proof.
  split.
  - apply (prop_set_rejects_without_write HP5384A.function "%s" strict_discrete_set);
      reflexivity.
  - apply (prop_set_rejects_without_write HP8350X.amplitude_marker_enabled "AK%d"
             strict_discrete_set); reflexivity.
Defined.

(** C2 (code defect): assigning [center_frequency = 1000000] does not send
    ["CF 1000000HZ"].  [set_process] turns the integer into the text
    ["1000000HZ"], and ["CF %d" % "1000000HZ"] raises [TypeError] ([%d]
    needs a number), so nothing is written.  No value at all can be
    assigned: every assignment fails and leaves the transport unchanged. *)
Theorem center_frequency_set_type_error :
  (forall st,
     prop_set HP8350X.center_frequency (PyInt 1000000) st = (Err TypeError, st))
  /\ (forall v st, exists e, prop_set HP8350X.center_frequency v st = (Err e, st)).
Proof.
  split.
  - intro st; reflexivity.
  - intros v st.
    unfold prop_set, HP8350X.center_frequency, control, bind, lift; simpl.
    unfold HP8350X.hz_set_process.
    destruct (py_int v) as [z | e]; simpl; eauto.
Qed.

(** C3: with the constructor's default read terminator ["\r\n"], reading
    [instrument_id] writes exactly ["ID"] followed by the configured write
    terminator, and on the reply ["HP5384A\r\n"] returns the text
    ["HP5384A"], consuming exactly that line. *)
Theorem instrument_id_read : forall wterm rest,
  prop_get HP5384A.instrument_id
    (set_inbuf (HP5384A.init None wterm) ("HP5384A" ++ CRLF ++ rest))
  = (Ok (PyStr "HP5384A"), mkTransport ["ID" ++ wterm] rest CRLF wterm).
Proof. intros wterm rest; reflexivity. Qed.

(** C4: assigning [True] to [amplitude_marker_enabled] sends exactly
    ["AK1"] and assigning [False] exactly ["AK0"], each followed by the
    configured write terminator, and nothing else. *)
Theorem amplitude_marker_enabled_set : forall st,
  prop_set HP8350X.amplitude_marker_enabled (PyBool true) st
    = (Ok tt, set_written st (written st ++ ["AK1" ++ write_termination st]))
  /\ prop_set HP8350X.amplitude_marker_enabled (PyBool false) st
    = (Ok tt, set_written st (written st ++ ["AK0" ++ write_termination st])).
Proof. intros [w b r t]; split; reflexivity. Qed.

(** C5: [strict_discrete_set] accepts [v] (returning it) exactly when
    [v == k] for some member [k] of the list, or of the dict's key set,
    and raises [ValidationError] otherwise; so for a [map_values] property
    validated against its dict, a value that passes validation always has
    a wire token: the missing-key branch of the lookup is unreachable. *)
Theorem strict_discrete_set_spec :
  (forall v m,
     (run_validator strict_discrete_set v (ValMap m) = Ok v
      /\ exists k, In k (map_keys m) /\ py_eq v k = true)
     \/ (run_validator strict_discrete_set v (ValMap m) = Err ValidationError
         /\ forall k, In k (map_keys m) -> py_eq v k = false))
  /\ (forall v l,
     (run_validator strict_discrete_set v (ValList l) = Ok v
      /\ exists k, In k l /\ py_eq v k = true)
     \/ (run_validator strict_discrete_set v (ValList l) = Err ValidationError
         /\ forall k, In k l -> py_eq v k = false))
  /\ (forall p m v v',
     map_values p = true ->
     validator p = Some strict_discrete_set ->
     values p = ValMap m ->
     run_validator strict_discrete_set v (values p) = Ok v' ->
     exists t, value_map_encode (values p) v' = Ok t).
Proof.
  assert (Hl : forall v l,
     (run_validator strict_discrete_set v (ValList l) = Ok v
      /\ exists k, In k l /\ py_eq v k = true)
     \/ (run_validator strict_discrete_set v (ValList l) = Err ValidationError
         /\ forall k, In k l -> py_eq v k = false)).
  { intros v l; simpl.
    destruct (existsb (py_eq v) l) eqn:E.
    - left; split; [reflexivity | now apply existsb_exists].
    - right; split; [reflexivity |].
      intros k Hk; destruct (py_eq v k) eqn:Ek; [| reflexivity].
      assert (existsb (py_eq v) l = true) by (apply existsb_exists; eauto).
      congruence. }
  split; [| split; [exact Hl |]].
  - intros v m; exact (Hl v (map_keys m)).
  - intros p m v v' _ _ Hv H.
    rewrite Hv in *; simpl in H.
    destruct (existsb (py_eq v) (map_keys m)) eqn:E; [| discriminate].
    injection H as <-.
    apply existsb_exists in E as [k [Hin Heq]].
    destruct (assoc_lookup_defined m v k Hin Heq) as [t Ht].
    exists t; simpl; now rewrite Ht.
Qed.

Lemma strict_discrete_set_spec_witness :
  exists t, value_map_encode (values HP5384A.function) (PyStr "freq_b") = Ok t.
Proof.
  apply (proj2 (proj2 strict_discrete_set_spec) HP5384A.function HP5384A.FUNCTIONS
           (PyStr "freq_b")); reflexivity.
Defined.

Lemma assoc_lookup_distinct : forall m k t,
  distinct_by fst m = true -> In (k, t) m -> assoc_lookup m k = Some t.
Proof.
  induction m as [| [k0 t0] r IH]; simpl; intros k t Hd Hin; [contradiction |].
  apply andb_prop in Hd as [Hn Hd]; apply negb_true_iff in Hn.
  destruct Hin as [Heq | Hin].
  - injection Heq as -> ->; now rewrite py_eq_refl.
  - destruct (py_eq k k0) eqn:E; [exfalso | now apply IH].
    rewrite py_eq_sym in E.
    assert (existsb (fun y => py_eq k0 (fst y)) r = true)
      by (apply existsb_exists; exists (k, t); auto).
    congruence.
Qed.

Lemma assoc_rev_lookup_distinct : forall m k t,
  distinct_by snd m = true -> In (k, t) m -> assoc_rev_lookup m t = Some k.
Proof.
  induction m as [| [k0 t0] r IH]; simpl; intros k t Hd Hin; [contradiction |].
  apply andb_prop in Hd as [Hn Hd]; apply negb_true_iff in Hn.
  destruct Hin as [Heq | Hin].
  - injection Heq as -> ->; now rewrite py_eq_refl.
  - destruct (py_eq t t0) eqn:E; [exfalso | now apply (IH k)].
    rewrite py_eq_sym in E.
    assert (existsb (fun y => py_eq t0 (snd y)) r = true)
      by (apply existsb_exists; exists (k, t); auto).
    congruence.
Qed.

(** C6: for a value map whose keys are pairwise distinct (as a dict's
    are) and which is injective (no two keys share a wire token), encoding
    any key to its token and decoding that token through the inverse map
    gives back the original key.  [BOOL_MAPPINGS] and [FUNCTIONS] meet
    both conditions. *)
Theorem value_map_roundtrip : forall m,
  distinct_by fst m = true ->
  distinct_by snd m = true ->
  forall k t, In (k, t) m ->
  value_map_encode (ValMap m) k = Ok t /\ value_map_decode (ValMap m) t = Ok k.
Proof.
  intros m Hk Ht k t Hin; simpl.
  now rewrite (assoc_lookup_distinct m k t Hk Hin),
              (assoc_rev_lookup_distinct m k t Ht Hin).
Qed.

Lemma value_map_roundtrip_witness :
  (value_map_encode (ValMap HP8350X.BOOL_MAPPINGS) (PyBool false) = Ok (PyInt 0)
   /\ value_map_decode (ValMap HP8350X.BOOL_MAPPINGS) (PyInt 0) = Ok (PyBool false))
  /\ (value_map_encode (ValMap HP5384A.FUNCTIONS) (PyStr "period_a") = Ok (PyStr "FU2")
   /\ value_map_decode (ValMap HP5384A.FUNCTIONS) (PyStr "FU2") = Ok (PyStr "period_a")).
Proof.
  split.
  - apply value_map_roundtrip; [reflexivity | reflexivity | simpl; auto].
  - apply value_map_roundtrip; [reflexivity | reflexivity | simpl; auto].
Defined.

(** C7: a measurement with the empty [get_command], [HP5384A.value_],
    writes nothing when read: it reads one reply line, converts it and
    returns it through its identity [get_process], and the written
    commands are unchanged.  A measurement with a non-empty command sends
    it first, then reads one line and applies [get_process]. *)
Theorem measurement_empty_command_no_write :
  (forall st,
     prop_get HP5384A.value_ st = (line <- tr_read ;; ret (parse_reply line)) st
     /\ written (snd (prop_get HP5384A.value_ st)) = written st)
  /\ (forall c gp st, c <> "" ->
     prop_get (measurement c gp) st
     = (tr_write c ;;; line <- tr_read ;; lift (gp (parse_reply line))) st).
Proof.
  split.
  - intro st; unfold prop_get, HP5384A.value_, measurement, bind, ret, lift, tr_read; simpl.
    destruct (split_at_term (read_termination st) (inbuf st)) as [[line rest] |];
      split; reflexivity.
  - intros c gp st Hc.
    unfold prop_get, measurement; simpl.
    apply String.eqb_neq in Hc; rewrite Hc.
    unfold bind, ret, lift, tr_write, tr_read; simpl.
    destruct (split_at_term _ _) as [[line rest] |]; [| reflexivity].
    destruct (gp (parse_reply line)); reflexivity.
Qed.

Lemma measurement_empty_command_no_write_witness :
  prop_get (measurement "ID" Ok) (HP5384A.init None CRLF)
  = (tr_write "ID" ;;; line <- tr_read ;; lift (Ok (parse_reply line)))
      (HP5384A.init None CRLF).
Proof.
  apply (proj2 measurement_empty_command_no_write); discriminate.
Defined.

Lemma take_bytes_no_break : forall n s b r,
  take_bytes n None s = Some (b, r) -> String.length b = n /\ b ++ r = s.
Proof.
  induction n as [| n IH]; intros s b r H; simpl in H.
  - injection H as <- <-; auto.
  - destruct s as [| c s]; [discriminate |].
    destruct (take_bytes n None s) as [[b' r'] |] eqn:E; [| discriminate].
    simpl in H; injection H as <- <-.
    destruct (IH s b' r' E) as [Hl Ha]; simpl; split; congruence.
Qed.

Lemma take_all_no_break : forall s, take_all None s = (s, "").
Proof. induction s as [| c s IH]; simpl; [| rewrite IH]; reflexivity. Qed.

Lemma term_only_last_cons : forall t c b,
  Ascii.eqb t c = false -> term_only_last t b = true ->
  term_only_last t (String c b) = true.
Proof. intros t c b Hc Hb; simpl; destruct b; [reflexivity | now rewrite Hc]. Qed.

Lemma take_bytes_break : forall n t s b r,
  take_bytes n (Some t) s = Some (b, r) ->
  term_only_last t b = true /\ b ++ r = s /\ (String.length b <= n)%nat.
Proof.
  induction n as [| n IH]; intros t s b r H; simpl in H.
  - injection H as <- <-; simpl; auto.
  - destruct s as [| c s]; [discriminate |].
    destruct (Ascii.eqb t c) eqn:Ec.
    + injection H as <- <-; simpl; split; [reflexivity | split; [reflexivity | lia]].
    + destruct (take_bytes n (Some t) s) as [[b' r'] |] eqn:E; [| discriminate].
      simpl in H; injection H as <- <-.
      destruct (IH t s b' r' E) as [Ht [Ha Hl]].
      split; [now apply term_only_last_cons |].
      simpl; split; [congruence | lia].
Qed.

Lemma take_all_break : forall t s,
  term_only_last t (fst (take_all (Some t) s)) = true
  /\ fst (take_all (Some t) s) ++ snd (take_all (Some t) s) = s.
Proof.
  intro t; induction s as [| c s [Ht Ha]]; simpl; [auto |].
  destruct (Ascii.eqb t c) eqn:Ec; simpl; [auto |].
  split; [now apply term_only_last_cons | congruence].
Qed.

Lemma last_char_cons : forall c b t,
  last_char b = Some t -> last_char (String c b) = Some t.
Proof. intros c b t H; destruct b; [discriminate | exact H]. Qed.

(** With break-on-terminator, a byte-counted read ends at the
    termination character or after the full count. *)
Lemma take_bytes_break_stop : forall n t s b r,
  take_bytes n (Some t) s = Some (b, r) ->
  last_char b = Some t \/ String.length b = n.
Proof.
  induction n as [| n IH]; intros t s b r H; simpl in H.
  - injection H as <- <-; right; reflexivity.
  - destruct s as [| c s]; [discriminate |].
    destruct (Ascii.eqb t c) eqn:Ec.
    + injection H as <- <-; apply Ascii.eqb_eq in Ec; subst c; left; reflexivity.
    + destruct (take_bytes n (Some t) s) as [[b' r'] |] eqn:E; [| discriminate].
      simpl in H; injection H as <- <-.
      destruct (IH t s b' r' E) as [Hl | Hl];
        [left; now apply last_char_cons | right; simpl; congruence].
Qed.

(** With break-on-terminator, reading what is pending ends at the
    termination character or when nothing is left. *)
Lemma take_all_break_stop : forall t s,
  last_char (fst (take_all (Some t) s)) = Some t \/ snd (take_all (Some t) s) = "".
Proof.
  intro t; induction s as [| c s IH]; simpl; [right; reflexivity |].
  destruct (Ascii.eqb t c) eqn:Ec; simpl.
  - left; apply Ascii.eqb_eq in Ec; now subst c.
  - destruct IH as [IH | IH]; [left; now apply last_char_cons | right; exact IH].
Qed.

(** C8, refuted: with break-on-terminator requested a non-negative count
    does not give that many bytes.  [read_bytes(7, break_on_termchar=True)]
    with terminator [","] on the pending reply ["SCPI,MOCK,VERSION_1.0\n"]
    returns the five bytes ["SCPI,"] (test_read_break_on_termchar). *)
Lemma read_bytes_count_with_break_counterexample :
  ~ (forall count brk st b st',
       (0 <= count)%Z -> read_bytes count brk st = (Ok b, st') ->
       String.length b = Z.to_nat count).
Proof.
  intro H.
  specialize (H 7%Z true (mkTransport [] idn_reply "," "") "SCPI,"
                (mkTransport [] ("MOCK,VERSION_1.0" ++ LF) "," "")).
  assert (Hl : String.length "SCPI," = Z.to_nat 7) by (apply H; [lia | reflexivity]).
  discriminate Hl.
Qed.

(** C8, as the code has it: without break-on-terminator a count
    [>= 0] reads exactly [count] bytes (the first [count] pending ones)
    and a negative count reads everything pending, terminator or not; with
    break-on-terminator the read stops at the first termination
    character, for a negative count and for a count [>= 0] alike: the
    bytes returned are a prefix of the pending ones with no termination
    character before their last byte, and they end with the termination
    character unless a count [>= 0] was used up first (exactly [count]
    bytes) or, for a negative count, nothing is left pending. *)
Theorem read_bytes_spec :
  (forall count st b st',
     (0 <= count)%Z -> read_bytes count false st = (Ok b, st') ->
     String.length b = Z.to_nat count /\ b ++ inbuf st' = inbuf st)
  /\ (forall count st,
     (count < 0)%Z -> read_bytes count false st = (Ok (inbuf st), set_inbuf st ""))
  /\ (forall count st t b st',
     last_char (read_termination st) = Some t ->
     read_bytes count true st = (Ok b, st') ->
     term_only_last t b = true /\ b ++ inbuf st' = inbuf st
     /\ (last_char b = Some t
         \/ (if Z.leb 0 count then String.length b = Z.to_nat count
             else inbuf st' = ""))
     /\ ((0 <= count)%Z -> (String.length b <= Z.to_nat count)%nat)).
Proof.
  split; [| split].
  - intros count st b st' Hc H; unfold read_bytes in H; simpl in H.
    apply Z.leb_le in Hc; rewrite Hc in H.
    destruct (take_bytes (Z.to_nat count) None (inbuf st)) as [[b' r] |] eqn:E;
      [| discriminate].
    injection H as <- <-; exact (take_bytes_no_break _ _ _ _ E).
  - intros count st Hc; unfold read_bytes; simpl.
    assert (Z.leb 0 count = false) as -> by (apply Z.leb_gt; lia).
    now rewrite take_all_no_break.
  - intros count st t b st' Ht H; unfold read_bytes in H; rewrite Ht in H.
    destruct (Z.leb 0 count) eqn:Hc.
    + destruct (take_bytes (Z.to_nat count) (Some t) (inbuf st)) as [[b' r] |] eqn:E;
        [| discriminate].
      injection H as <- <-.
      destruct (take_bytes_break _ _ _ _ _ E) as [H1 [H2 H3]].
      pose proof (take_bytes_break_stop _ _ _ _ _ E) as H4; simpl; auto.
    + injection H as <- <-; simpl.
      destruct (take_all_break t (inbuf st)) as [H1 H2].
      split; [exact H1 | split; [exact H2 | split]].
      * exact (take_all_break_stop t (inbuf st)).
      * intro; apply Z.leb_gt in Hc; lia.
Qed.

Lemma read_bytes_spec_witness :
  term_only_last "," "SCPI," = true
  /\ "SCPI," ++ inbuf (mkTransport [] ("MOCK,VERSION_1.0" ++ LF) "," "")
     = inbuf (mkTransport [] idn_reply "," "")
  /\ (last_char "SCPI," = Some ","%char
      \/ (if Z.leb 0 7 then String.length "SCPI," = Z.to_nat 7
          else inbuf (mkTransport [] ("MOCK,VERSION_1.0" ++ LF) "," "") = ""))
  /\ ((0 <= 7)%Z -> (String.length "SCPI," <= Z.to_nat 7)%nat).
Proof.
  apply (proj2 (proj2 read_bytes_spec) 7%Z (mkTransport [] idn_reply "," "")
           ","%char "SCPI," (mkTransport [] ("MOCK,VERSION_1.0" ++ LF) "," ""));
    reflexivity.
Defined.

Lemma substring_0_short : forall s n,
  (String.length s <= n)%nat -> substring 0 n s = s.
Proof.
  induction s as [| c s IH]; intros n H; destruct n; simpl in *;
    try reflexivity; try lia.
  rewrite IH; [reflexivity | lia].
Qed.

Lemma substring_0_app : forall s u, substring 0 (String.length s) (s ++ u) = s.
Proof.
  induction s as [| c s IH]; intro u; simpl; [destruct u; reflexivity | now rewrite IH].
Qed.

Lemma display_text_sends : forall s st,
  prop_set HP5384A.display_text (PyStr s) st
  = (Ok tt, set_written st
              (written st ++ [("DR" ++ py_upper (substring 0 20 s)) ++ write_termination st])).
Proof.
  intros s st.
  unfold prop_set, HP5384A.display_text, setting, bind, lift, tr_write; simpl.
  now rewrite append_empty_r.
Qed.

(** C9: assigning a string [s] to [display_text] sends ["DR"] followed by
    the upper-case form of [s[0:20]] (and the write terminator); for
    [len(s) <= 20] that is the upper-case form of [s] itself, and the
    characters after the first 20 never reach the transport: [s] and its
    first 20 characters give the same transport state. *)
Theorem display_text_set :
  (forall s st,
     prop_set HP5384A.display_text (PyStr s) st
     = (Ok tt, set_written st
                 (written st ++ [("DR" ++ py_upper (substring 0 20 s)) ++ write_termination st])))
  /\ (forall s st, (String.length s <= 20)%nat ->
     prop_set HP5384A.display_text (PyStr s) st
     = (Ok tt, set_written st (written st ++ [("DR" ++ py_upper s) ++ write_termination st])))
  /\ (forall s u st, String.length s = 20%nat ->
     prop_set HP5384A.display_text (PyStr (s ++ u)) st
     = prop_set HP5384A.display_text (PyStr s) st).
Proof.
  split; [exact display_text_sends | split].
  - intros s st Hs; rewrite display_text_sends, substring_0_short; auto.
  - intros s u st Hs.
    rewrite !display_text_sends, <- Hs, substring_0_app, substring_0_short; auto.
Qed.

Lemma display_text_set_witness :
  prop_set HP5384A.display_text (PyStr "hello") (HP5384A.init None CRLF)
  = (Ok tt, set_written (HP5384A.init None CRLF)
              (written (HP5384A.init None CRLF)
               ++ [("DR" ++ py_upper "hello") ++ write_termination (HP5384A.init None CRLF)])).
Proof. apply (proj1 (proj2 display_text_set)); simpl; lia. Defined.

Lemma enum_call_member : forall cls ms x v,
  enum_call cls ms x = Ok v -> exists n z, v = PyEnum cls n z /\ In (n, z) ms.
Proof.
  intros cls ms x v H; unfold enum_call in H.
  destruct (find _ ms) as [[n z] |] eqn:E; [| discriminate].
  injection H as <-; apply find_some in E as [Hin _]; eauto.
Qed.

Lemma enum_call_out_of_range : forall cls ms x z,
  py_num x = Some z -> ~ In z (map snd ms) -> enum_call cls ms x = Err ValueError.
Proof.
  intros cls ms x z Hx Hz; unfold enum_call.
  destruct (find _ ms) as [[n z'] |] eqn:E; [exfalso | reflexivity].
  apply find_some in E as [Hin Heq]; simpl in Heq.
  rewrite py_eq_int_l, Hx in Heq; apply Z.eqb_eq in Heq; subst z'.
  apply Hz; change z with (snd (n, z)); now apply in_map.
Qed.

Lemma prop_get_processed : forall p c st v st',
  get_command p = Some c -> map_values p = false ->
  prop_get p st = (Ok v, st') -> exists x, get_process p x = Ok v.
Proof.
  intros p c st v st' Hc Hm H.
  unfold prop_get in H; rewrite Hc, Hm in H.
  unfold bind, ret, lift, tr_write, tr_read in H.
  destruct (String.eqb c "");
    match type of H with
    | context [split_at_term ?t ?b] => destruct (split_at_term t b) as [[line rest] |]
    end; try discriminate;
    destruct (get_process p (parse_reply line)) eqn:E; try discriminate;
    injection H as <- _; eauto.
Qed.

(** C10: the enum-valued controls never return an out-of-range value.
    [LevelingMode(x)] raises for every number [x] outside [{1, 2, 3}] and
    [FMSensitivity(x)] for every number outside [{-20, -6}]; and whenever
    reading [leveling_mode] or [fm_sensitivity] succeeds, the value
    returned is a member of the corresponding enum. *)
Theorem enum_controls_in_range :
  (forall x z, py_num x = Some z -> ~ In z [1; 2; 3]%Z ->
     get_process HP8350X.leveling_mode x = Err ValueError)
  /\ (forall x z, py_num x = Some z -> ~ In z [-20; -6]%Z ->
     get_process HP8350X.fm_sensitivity x = Err ValueError)
  /\ (forall st v st', prop_get HP8350X.leveling_mode st = (Ok v, st') ->
     exists n z, v = PyEnum "LevelingMode" n z /\ In (n, z) HP8350X.LevelingMode)
  /\ (forall st v st', prop_get HP8350X.fm_sensitivity st = (Ok v, st') ->
     exists n z, v = PyEnum "FMSensitivity" n z /\ In (n, z) HP8350X.FMSensitivity).
Proof.
  split; [| split; [| split]].
  - intros x z Hx Hz; exact (enum_call_out_of_range _ HP8350X.LevelingMode x z Hx Hz).
  - intros x z Hx Hz; exact (enum_call_out_of_range _ HP8350X.FMSensitivity x z Hx Hz).
  - intros st v st' H.
    destruct (prop_get_processed HP8350X.leveling_mode "OPA" _ _ _ eq_refl eq_refl H)
      as [x Hx].
    exact (enum_call_member _ _ _ _ Hx).
  - intros st v st' H.
    destruct (prop_get_processed HP8350X.fm_sensitivity "OPF" _ _ _ eq_refl eq_refl H)
      as [x Hx].
    exact (enum_call_member _ _ _ _ Hx).
Qed.

Lemma enum_controls_in_range_witness :
  get_process HP8350X.leveling_mode (PyInt 5) = Err ValueError
  /\ get_process HP8350X.fm_sensitivity (PyInt (-10)) = Err ValueError.
Proof.
  split.
  - apply ((proj1 enum_controls_in_range) (PyInt 5) 5%Z); [reflexivity | simpl; lia].
  - apply ((proj1 (proj2 enum_controls_in_range)) (PyInt (-10)) (-10)%Z);
      [reflexivity | simpl; lia].
Defined.

(* ------------------------------------------------------------------ *)
(** ** Further properties of the instrument classes *)

Lemma py_eq_trans : forall a b c,
  py_eq a b = true -> py_eq b c = true -> py_eq a c = true.
Proof.
  intros x y z; destruct x, y, z; unfold py_eq; cbn -[Z.eqb String.eqb];
    intros H1 H2; try discriminate;
    try (apply Z.eqb_eq in H1; apply Z.eqb_eq in H2; apply Z.eqb_eq; lia);
    try (apply String.eqb_eq in H1; apply String.eqb_eq in H2;
         apply String.eqb_eq; congruence);
    reflexivity.
Qed.

Lemma py_eq_congr : forall v v' x,
  py_eq v v' = true -> py_eq v x = py_eq v' x.
Proof.
  intros v v' x H.
  destruct (py_eq v x) eqn:E1, (py_eq v' x) eqn:E2; try reflexivity.
  - rewrite (py_eq_trans v' v x) in E2; [discriminate | now rewrite py_eq_sym | exact E1].
  - rewrite (py_eq_trans v v' x) in E1; [discriminate | exact H | exact E2].
Qed.

Lemma existsb_py_eq_congr : forall v v' l,
  py_eq v v' = true -> existsb (py_eq v) l = existsb (py_eq v') l.
Proof.
  intros v v' l H; induction l as [| x l IH]; simpl; [reflexivity |].
  now rewrite (py_eq_congr v v' x H), IH.
Qed.

Lemma assoc_lookup_congr : forall m v v',
  py_eq v v' = true -> assoc_lookup m v = assoc_lookup m v'.
Proof.
  intros m v v' H; induction m as [| [k t] m IH]; simpl; [reflexivity |].
  now rewrite (py_eq_congr v v' k H), IH.
Qed.

(** X: for a [map_values] property validated by [strict_discrete_set]
    against its dict, assigning two values that are [==] (such as [True]
    and [1]) has exactly the same effect: same outcome, same command sent. *)
Theorem map_values_set_respects_eq : forall p m v v' st,
  map_values p = true ->
  validator p = Some strict_discrete_set ->
  values p = ValMap m ->
  py_eq v v' = true ->
  prop_set p v st = prop_set p v' st.
Proof.
  intros p m v v' st Hm Hv Hvals Heq.
  unfold prop_set; destruct (set_command p) as [template |]; [| reflexivity].
  rewrite Hv, Hvals, Hm; unfold bind, lift; cbn [run_validator].
  rewrite (existsb_py_eq_congr v v' (map_keys m) Heq).
  destruct (existsb (py_eq v') (map_keys m)); [| reflexivity].
  unfold value_map_encode; now rewrite (assoc_lookup_congr m v v' Heq).
Qed.

Lemma map_values_set_respects_eq_witness :
  prop_set HP8350X.am_enabled (PyInt 1) (HP8350X.init None CRLF)
  = prop_set HP8350X.am_enabled (PyBool true) (HP8350X.init None CRLF).
Proof.
  apply (map_values_set_respects_eq _ HP8350X.BOOL_MAPPINGS); reflexivity.
Defined.

(** X: each of the eight boolean controls of the sweep oscillator sends
    its two-letter prefix followed by [1] for [True] and [0] for [False],
    and nothing else. *)
Theorem bool_control_set : forall p g pre,
  In (p, g, pre) HP8350X.bool_controls ->
  forall b st,
  prop_set p (PyBool b) st
  = (Ok tt, set_written st
              (written st ++ [pre ++ (if b then "1" else "0") ++ write_termination st])).
Proof.
  intros p g pre H b [w i r t]; simpl in H.
  repeat (destruct H as [H | H]; [injection H as <- <- <-; destruct b; reflexivity |]).
  contradiction.
Qed.

Lemma bool_control_set_witness :
  prop_set HP8350X.cw_filter_enabled (PyBool true) (HP8350X.init None CRLF)
  = (Ok tt, set_written (HP8350X.init None CRLF)
              (written (HP8350X.init None CRLF)
               ++ ["FI" ++ "1" ++ write_termination (HP8350X.init None CRLF)])).
Proof. apply (bool_control_set _ "OPFI"); simpl; tauto. Defined.

(** X: a boolean control written and then read back from an instrument
    that echoes the written digit returns the value written: the two
    commands sent are the set command and the query, and the reply line
    is consumed. *)
Theorem bool_control_roundtrip : forall p g pre,
  In (p, g, pre) HP8350X.bool_controls ->
  forall b w rest wt,
  (prop_set p (PyBool b) ;;; prop_get p)
    (mkTransport w ((if b then "1" else "0") ++ CRLF ++ rest) CRLF wt)
  = (Ok (PyBool b),
     mkTransport ((w ++ [pre ++ (if b then "1" else "0") ++ wt]) ++ [g ++ wt]) rest CRLF wt).
Proof.
  intros p g pre H b w rest wt; simpl in H.
  repeat (destruct H as [H | H]; [injection H as <- <- <-; destruct b; reflexivity |]).
  contradiction.
Qed.

Lemma bool_control_roundtrip_witness :
  (prop_set HP8350X.display_update_enabled (PyBool false) ;;;
   prop_get HP8350X.display_update_enabled)
    (mkTransport [] ("0" ++ CRLF ++ "") CRLF CRLF)
  = (Ok (PyBool false),
     mkTransport (([] ++ ["DU" ++ "0" ++ CRLF]) ++ ["OPDU" ++ CRLF]) "" CRLF CRLF).
Proof.
  refine (bool_control_roundtrip HP8350X.display_update_enabled "OPDU" "DU" _
            false [] "" CRLF).
  simpl; tauto.
Defined.

Lemma py_int_num : forall v z, py_num v = Some z -> py_int v = Ok z.
Proof. intros v z H; destruct v; simpl in *; congruence. Qed.

(** X: none of the four frequency controls ([center_frequency],
    [delta_frequency], [start_frequency], [stop_frequency]) can be
    assigned: every value fails and leaves the transport unchanged, and a
    number (an [int], a [bool] or an [IntEnum] member) fails with
    [TypeError], raised by ["... %d" % "<n>HZ"]. *)
Theorem frequency_control_set_fails : forall p,
  In p HP8350X.frequency_controls ->
  forall v st,
  (exists e, prop_set p v st = (Err e, st))
  /\ (forall z, py_num v = Some z -> prop_set p v st = (Err TypeError, st)).
Proof.
  intros p H v st; simpl in H.
  repeat (destruct H as [H | H];
    [subst p; unfold prop_set, bind, lift; simpl;
     unfold HP8350X.hz_set_process;
     split; [destruct (py_int v); eexists; reflexivity
            | intros z Hz; now rewrite (py_int_num v z Hz)] |]).
  contradiction.
Qed.

Lemma frequency_control_set_fails_witness :
  (exists e, prop_set HP8350X.stop_frequency (PyInt 5) (HP8350X.init None CRLF)
             = (Err e, HP8350X.init None CRLF))
  /\ (forall z, py_num (PyInt 5) = Some z ->
       prop_set HP8350X.stop_frequency (PyInt 5) (HP8350X.init None CRLF)
       = (Err TypeError, HP8350X.init None CRLF)).
Proof. apply (frequency_control_set_fails HP8350X.stop_frequency); simpl; tauto. Defined.

(** X: assigning a member value of [LevelingMode] ([1], [2], [3]) or of
    [FMSensitivity] ([-20], [-6]) to [leveling_mode] / [fm_sensitivity],
    as a plain integer or as the enum member itself, sends the prefix
    ([A] / [F]) followed by the decimal value, and nothing else. *)
Theorem enum_control_set : forall p cls ms g pre,
  In (p, cls, ms, g, pre) HP8350X.enum_controls ->
  forall n z, In (n, z) ms ->
  forall st,
  prop_set p (PyInt z) st
    = (Ok tt, set_written st (written st ++ [pre ++ py_str_of_Z z ++ write_termination st]))
  /\ prop_set p (PyEnum cls n z) st
    = (Ok tt, set_written st (written st ++ [pre ++ py_str_of_Z z ++ write_termination st])).
Proof.
  intros p cls ms g pre H n z Hz [w i r t]; simpl in H.
  repeat (destruct H as [H | H];
    [injection H as <- <- <- <- <-; simpl in Hz;
     repeat (destruct Hz as [Hz | Hz]; [injection Hz as <- <-; split; reflexivity |]);
     contradiction |]).
  contradiction.
Qed.

Lemma enum_control_set_witness :
  prop_set HP8350X.fm_sensitivity (PyInt (-20)) (HP8350X.init None CRLF)
    = (Ok tt, set_written (HP8350X.init None CRLF)
                (written (HP8350X.init None CRLF)
                 ++ ["F" ++ py_str_of_Z (-20) ++ write_termination (HP8350X.init None CRLF)]))
  /\ prop_set HP8350X.fm_sensitivity (PyEnum "FMSensitivity" "Neg20" (-20))
       (HP8350X.init None CRLF)
    = (Ok tt, set_written (HP8350X.init None CRLF)
                (written (HP8350X.init None CRLF)
                 ++ ["F" ++ py_str_of_Z (-20) ++ write_termination (HP8350X.init None CRLF)])).
Proof.
  refine (enum_control_set HP8350X.fm_sensitivity "FMSensitivity" HP8350X.FMSensitivity
            "OPF" "F" _ "Neg20" (-20)%Z _ _); simpl; tauto.
Defined.

(** X: writing an enum member to [leveling_mode] or [fm_sensitivity] and
    reading it back from an instrument that echoes the value returns the
    same enum member. *)
Theorem enum_control_roundtrip : forall p cls ms g pre,
  In (p, cls, ms, g, pre) HP8350X.enum_controls ->
  forall n z, In (n, z) ms ->
  forall w rest wt,
  (prop_set p (PyEnum cls n z) ;;; prop_get p)
    (mkTransport w (py_str_of_Z z ++ CRLF ++ rest) CRLF wt)
  = (Ok (PyEnum cls n z),
     mkTransport ((w ++ [pre ++ py_str_of_Z z ++ wt]) ++ [g ++ wt]) rest CRLF wt).
Proof.
  intros p cls ms g pre H n z Hz w rest wt; simpl in H.
  repeat (destruct H as [H | H];
    [injection H as <- <- <- <- <-; simpl in Hz;
     repeat (destruct Hz as [Hz | Hz]; [injection Hz as <- <-; reflexivity |]);
     contradiction |]).
  contradiction.
Qed.

Lemma enum_control_roundtrip_witness :
  (prop_set HP8350X.leveling_mode (PyEnum "LevelingMode" "ExternalPowerMeter" 3) ;;;
   prop_get HP8350X.leveling_mode)
    (mkTransport [] (py_str_of_Z 3 ++ CRLF ++ "") CRLF CRLF)
  = (Ok (PyEnum "LevelingMode" "ExternalPowerMeter" 3),
     mkTransport (([] ++ ["A" ++ py_str_of_Z 3 ++ CRLF]) ++ ["OPA" ++ CRLF]) "" CRLF CRLF).
Proof.
  refine (enum_control_roundtrip HP8350X.leveling_mode "LevelingMode" HP8350X.LevelingMode
            "OPA" "A" _ "ExternalPowerMeter" 3%Z _ [] "" CRLF); simpl; tauto.
Defined.

Lemma str_prefix_app : forall p s,
  str_prefix p s = true -> s = p ++ str_drop (String.length p) s.
Proof.
  induction p as [| a p IH]; intros s H; [reflexivity |].
  destruct s as [| b s]; simpl in H; [discriminate |].
  apply andb_prop in H as [Hab Hp]; apply Ascii.eqb_eq in Hab; subst b.
  simpl; f_equal; now apply IH.
Qed.

Lemma split_at_term_app : forall t s l r,
  split_at_term t s = Some (l, r) -> s = l ++ t ++ r.
Proof.
  intro t; induction s as [| c s IH]; intros l r H; simpl in H.
  - destruct (str_prefix t "") eqn:P; [| discriminate].
    injection H as <- <-; exact (str_prefix_app t "" P).
  - destruct (str_prefix t (String c s)) eqn:P.
    + injection H as <- <-; exact (str_prefix_app t _ P).
    + destruct (split_at_term t s) as [[l' r'] |] eqn:E; simpl in H; [| discriminate].
      injection H as <- <-; simpl; f_equal; now apply IH.
Qed.

Lemma split_at_term_first : forall t s l r,
  split_at_term t s = Some (l, r) ->
  forall i, (i < String.length l)%nat -> str_prefix t (str_drop i s) = false.
Proof.
  intro t; induction s as [| c s IH]; intros l r H i Hi; simpl in H.
  - destruct (str_prefix t "") eqn:P; [| discriminate].
    injection H as <- <-; simpl in Hi; lia.
  - destruct (str_prefix t (String c s)) eqn:P.
    + injection H as <- <-; simpl in Hi; lia.
    + destruct (split_at_term t s) as [[l' r'] |] eqn:E; simpl in H; [| discriminate].
      injection H as <- <-; destruct i as [| k]; [exact P |].
      simpl in Hi |- *; apply (IH l' r' eq_refl); lia.
Qed.

(** X: a successful read of a property consumes exactly one reply line
    with its read terminator from the pending bytes (the line is the text
    before the first occurrence of the read terminator), and writes exactly
    the property's query command when that command is non-empty and
    nothing otherwise; the terminators stay as configured. *)
Theorem prop_get_consumes_one_line : forall p st v st',
  prop_get p st = (Ok v, st') ->
  exists c line,
    get_command p = Some c
    /\ inbuf st = line ++ read_termination st ++ inbuf st'
    /\ (forall i, (i < String.length line)%nat ->
         str_prefix (read_termination st) (str_drop i (inbuf st)) = false)
    /\ written st'
       = List.app (written st) (if String.eqb c "" then [] else [c ++ write_termination st])
    /\ read_termination st' = read_termination st
    /\ write_termination st' = write_termination st.
Proof.
  intros p st v st' H; unfold prop_get in H.
  destruct (get_command p) as [c |]; [| discriminate].
  exists c.
  unfold bind, ret, lift, tr_write, tr_read, set_written, set_inbuf in H.
  destruct (String.eqb c ""); simpl in H;
    match type of H with
    | context [split_at_term ?t ?b] => destruct (split_at_term t b) as [[l r] |] eqn:E
    end; try discriminate;
    destruct (get_process p (parse_reply l)); try discriminate;
    (destruct (map_values p); [destruct (value_map_decode (values p) _) |]);
    try discriminate; injection H as _ <-; exists l; simpl;
    (split; [reflexivity | split; [now apply split_at_term_app |
      split; [exact (split_at_term_first _ _ _ _ E) | auto]]]).
  all: rewrite app_nil_r; auto.
Qed.

Lemma prop_get_consumes_one_line_witness :
  exists c line,
    get_command HP5384A.instrument_id = Some c
    /\ inbuf (set_inbuf (HP5384A.init None CRLF) ("HP5384A" ++ CRLF ++ ""))
       = line ++ read_termination (set_inbuf (HP5384A.init None CRLF) ("HP5384A" ++ CRLF ++ ""))
         ++ inbuf (mkTransport ["ID" ++ CRLF] "" CRLF CRLF)
    /\ (forall i, (i < String.length line)%nat ->
         str_prefix (read_termination (set_inbuf (HP5384A.init None CRLF) ("HP5384A" ++ CRLF ++ "")))
           (str_drop i (inbuf (set_inbuf (HP5384A.init None CRLF) ("HP5384A" ++ CRLF ++ ""))))
         = false)
    /\ written (mkTransport ["ID" ++ CRLF] "" CRLF CRLF)
       = List.app (written (set_inbuf (HP5384A.init None CRLF) ("HP5384A" ++ CRLF ++ "")))
           (if String.eqb c "" then []
            else [c ++ write_termination
                         (set_inbuf (HP5384A.init None CRLF) ("HP5384A" ++ CRLF ++ ""))])
    /\ read_termination (mkTransport ["ID" ++ CRLF] "" CRLF CRLF)
       = read_termination (set_inbuf (HP5384A.init None CRLF) ("HP5384A" ++ CRLF ++ ""))
    /\ write_termination (mkTransport ["ID" ++ CRLF] "" CRLF CRLF)
       = write_termination (set_inbuf (HP5384A.init None CRLF) ("HP5384A" ++ CRLF ++ "")).
Proof.
  apply (prop_get_consumes_one_line HP5384A.instrument_id _ (PyStr "HP5384A")).
  reflexivity.
Defined.

Lemma split_single_take_all : forall t s l r,
  split_at_term (String t "") s = Some (l, r) ->
  take_all (Some t) s = (l ++ String t "", r).
Proof.
  intro t; induction s as [| c s IH]; intros l r H; simpl in H; [discriminate |].
  rewrite andb_true_r in H.
  destruct (Ascii.eqb t c) eqn:Etc; simpl.
  - injection H as <- <-; apply Ascii.eqb_eq in Etc; subst c.
    simpl; now rewrite Ascii.eqb_refl.
  - rewrite Etc.
    destruct (split_at_term (String t "") s) as [[l' r'] |] eqn:E; simpl in H;
      [| discriminate].
    injection H as <- <-; now rewrite (IH l' r' eq_refl).
Qed.

(** X: with a one-character read terminator, [read_bytes(-1,
    break_on_termchar=True)] returns what [read()] returns with the
    terminator kept, and leaves the same bytes pending. *)
Theorem read_matches_read_bytes_break : forall st t line st',
  read_termination st = String t "" ->
  tr_read st = (Ok line, st') ->
  read_bytes (-1) true st = (Ok (line ++ String t ""), st').
Proof.
  intros st t line st' Ht H; unfold tr_read in H; unfold read_bytes.
  rewrite Ht in *; simpl.
  destruct (split_at_term (String t "") (inbuf st)) as [[l r] |] eqn:E; [| discriminate].
  injection H as <- <-; now rewrite (split_single_take_all t _ l r E).
Qed.

Lemma read_matches_read_bytes_break_witness :
  read_bytes (-1) true (mkTransport [] idn_reply "," "")
  = (Ok ("SCPI" ++ ","), mkTransport [] ("MOCK,VERSION_1.0" ++ LF) "," "").
Proof. apply read_matches_read_bytes_break; reflexivity. Defined.

(** X: the HP 5384A [function] setting sends the wire code of each
    measurement function: ["FU1"] for ['freq_a'], ["FU2"] for
    ['period_a'], ["FU3"] for ['freq_b']. *)
Theorem function_set_sends_code : forall k t,
  In (k, t) HP5384A.FUNCTIONS ->
  forall st,
  prop_set HP5384A.function k st
  = (Ok tt, set_written st (written st ++ [py_str t ++ write_termination st])).
Proof.
  intros k t H [w i r wt]; simpl in H.
  repeat (destruct H as [H | H]; [injection H as <- <-; reflexivity |]).
  contradiction.
Qed.

Lemma function_set_sends_code_witness :
  prop_set HP5384A.function (PyStr "freq_b") (HP5384A.init None CRLF)
  = (Ok tt, set_written (HP5384A.init None CRLF)
              (written (HP5384A.init None CRLF)
               ++ [py_str (PyStr "FU3") ++ write_termination (HP5384A.init None CRLF)])).
Proof. apply function_set_sends_code; simpl; tauto. Defined.
